(** * Kovak: the clipboard-history manager of [kovak.py]

    A shallow embedding of the non-GUI logic of [kovak.py]: the settings
    store ([load_settings], [save_settings]), the settings dialog
    ([SettingsDialog.apply_changes], [ClipboardManager.update_hotkey]),
    the clipboard poller ([ClipboardManager.check_clipboard]), the history
    ([clearHistory]), the search ([findInList], [resetHighlighting]) and
    the restore action ([copyToClipboard]).

    Python values are modelled by small inductive types, exceptions by an
    explicit [result] type, and everything the program obtains from Qt, the
    [keyboard] package and the file system by the fields of one type class,
    [Platform]. *)

From Stdlib Require Import List String Ascii Bool Arith ZArith Lia.
Import ListNotations.

Open Scope string_scope.
Open Scope list_scope.

(** ** Exceptions *)

Inductive exn : Type :=
| IndexError
| KeyError
| TypeError
| ValueError
| FileNotFoundError
| JSONDecodeError
| PermissionError.

Inductive result (A : Type) : Type :=
| Ok (a : A)
| Raise (e : exn).

Arguments Ok {A} a.
Arguments Raise {A} e.

Definition bind {A B : Type} (m : result A) (k : A -> result B) : result B :=
  match m with
  | Ok a => k a
  | Raise e => Raise e
  end.

Notation "x <- m ;; k" := (bind m (fun x => k))
  (at level 61, m at next level, right associativity).

(** ** What the program takes from its platform

    [QImage] values with their [==], [isNull], the hex digest of the MD5 of
    the PNG encoding of the ARGB32 conversion (lines 207-219 of
    [check_clipboard]), [QImage(path)], [QUrl(text).isValid()],
    [url.toString()], the [os.path] tests, and the [keyboard] package: its
    table of registered hotkeys ([keyboard._hotkeys]) with [add_hotkey],
    [remove_hotkey] and the membership test, each of which may raise. *)

Inductive QUrl : Type :=
| QUrl_of (text : string)
| QUrl_fromLocalFile (path : string).

(** ** JSON values, as [json.load] returns them *)

Set Warnings "-register-all".

Inductive json : Type :=
| JNull
| JBool (b : bool)
| JInt (n : Z)
| JFloat (literal : string)
| JString (s : string)
| JArray (items : list json)
| JObject (members : list (string * json)).

Class Platform : Type := {
  QImage : Type;
  QImage_eq : QImage -> QImage -> bool;
  isNull : QImage -> bool;
  png_md5_hexdigest : QImage -> string;
  QImage_of_file : string -> QImage;
  isValid : QUrl -> bool;
  toString : QUrl -> string;
  os_path_exists : string -> bool;
  os_path_isfile : string -> bool;
  keyboard : Type;
  add_hotkey : string -> keyboard -> result keyboard;
  remove_hotkey : json -> keyboard -> result keyboard;
  in_hotkeys : json -> keyboard -> bool
}.

(** ** ASCII strings: [str.lower] and the [in] test on strings *)

Definition lower_ascii (c : ascii) : ascii :=
  let n := nat_of_ascii c in
  if ((65 <=? n)%nat && (n <=? 90)%nat)%bool then ascii_of_nat (n + 32) else c.

Fixpoint lower (s : string) : string :=
  match s with
  | EmptyString => EmptyString
  | String c rest => String (lower_ascii c) (lower rest)
  end.

Fixpoint startswith (needle hay : string) : bool :=
  match needle, hay with
  | EmptyString, _ => true
  | String _ _, EmptyString => false
  | String a needle', String b hay' => Ascii.eqb a b && startswith needle' hay'
  end.

(** [needle in hay] for two [str] values. *)
Fixpoint str_in (needle hay : string) : bool :=
  startswith needle hay
  || match hay with
     | EmptyString => false
     | String _ hay' => str_in needle hay'
     end.

(** [s.endswith(suffix)] *)
Definition endswith (s suffix : string) : bool :=
  let n := String.length s in
  let m := String.length suffix in
  (m <=? n)%nat && (substring (n - m) m s =? suffix).

(** ** Settings store *)

(** What [open(SETTINGS_PATH, "r")] and [json.load] meet at the fixed
    path. *)
Inductive file_state : Type :=
| FileMissing
| FileUnreadable
| FileMalformed (contents : string)
| FileJSON (v : json).

Definition open_r (f : file_state) : result file_state :=
  match f with
  | FileMissing => Raise FileNotFoundError
  | FileUnreadable => Raise PermissionError
  | _ => Ok f
  end.

Definition json_load (f : file_state) : result json :=
  match f with
  | FileJSON v => Ok v
  | _ => Raise JSONDecodeError
  end.

Definition default_settings : json := JObject [("hotkey", JString "shift+space")].

Definition load_settings (f : file_state) : result json :=
  match (file <- open_r f ;; json_load file) with
  | Ok settings => Ok settings
  | Raise FileNotFoundError => Ok default_settings
  | Raise JSONDecodeError => Ok default_settings
  | Raise e => Raise e
  end.

(** [save_settings]: [open(SETTINGS_PATH, "w")] then [json.dump]. *)
Definition save_settings (settings : json) (f : file_state) : result file_state :=
  match f with
  | FileUnreadable => Raise PermissionError
  | _ => Ok (FileJSON settings)
  end.

Fixpoint dict_get (key : string) (members : list (string * json)) : option json :=
  match members with
  | [] => None
  | (k, v) :: rest => if k =? key then Some v else dict_get key rest
  end.

Fixpoint dict_set (key : string) (v : json) (members : list (string * json))
  : list (string * json) :=
  match members with
  | [] => [(key, v)]
  | (k, w) :: rest =>
      if k =? key then (k, v) :: rest else (k, w) :: dict_set key v rest
  end.

(** [settings[key]] *)
Definition getitem (settings : json) (key : string) : result json :=
  match settings with
  | JObject members =>
      match dict_get key members with
      | Some v => Ok v
      | None => Raise KeyError
      end
  | _ => Raise TypeError
  end.

(** [settings[key] = v] *)
Definition setitem (settings : json) (key : string) (v : json) : result json :=
  match settings with
  | JObject members => Ok (JObject (dict_set key v members))
  | _ => Raise TypeError
  end.


Section Kovak.

Context {P : Platform}.

(** ** Python values stored in [self.history] and [self.previous_text]

    The poller builds the tuples [("text", text)], [("urls", joined)] and
    [("image", image_path, image)]; [copyToClipboard] also tests
    [isinstance(stored, str)], so a bare [str] is a value of this type
    too. *)

Inductive pyobj : Type :=
| PyStr (s : string)
| PyTuple2 (x0 x1 : string)
| PyTuple3 (x0 x1 : string) (x2 : QImage).

(** [a == b] *)
Definition py_eq (a b : pyobj) : bool :=
  match a, b with
  | PyStr s, PyStr t => s =? t
  | PyTuple2 a0 a1, PyTuple2 b0 b1 => (a0 =? b0) && (a1 =? b1)
  | PyTuple3 a0 a1 a2, PyTuple3 b0 b1 b2 =>
      (a0 =? b0) && (a1 =? b1) && QImage_eq a2 b2
  | _, _ => false
  end.

Definition isinstance_tuple (o : pyobj) : bool :=
  match o with
  | PyStr _ => false
  | _ => true
  end.

Definition isinstance_str (o : pyobj) : bool :=
  match o with
  | PyStr _ => true
  | _ => false
  end.

(** [o[0]] and [o[1]]: indexing a [str] gives a one-character [str] and
    raises [IndexError] past its end. *)
Definition item0 (o : pyobj) : result pyobj :=
  match o with
  | PyStr EmptyString => Raise IndexError
  | PyStr (String c _) => Ok (PyStr (String c EmptyString))
  | PyTuple2 x0 _ => Ok (PyStr x0)
  | PyTuple3 x0 _ _ => Ok (PyStr x0)
  end.

Definition item1 (o : pyobj) : result pyobj :=
  match o with
  | PyStr (String _ (String c _)) => Ok (PyStr (String c EmptyString))
  | PyStr _ => Raise IndexError
  | PyTuple2 _ x1 => Ok (PyStr x1)
  | PyTuple3 _ x1 _ => Ok (PyStr x1)
  end.

(** [any(p(stored) for stored in l)], where evaluating [p] may raise. *)
Fixpoint any_result (p : pyobj -> result bool) (l : list pyobj) : result bool :=
  match l with
  | [] => Ok false
  | stored :: rest =>
      b <- p stored ;;
      if b then Ok true else any_result p rest
  end.

(** ** Widgets *)

Record QColor : Type := rgb { red : nat; green : nat; blue : nat }.

Definition QColor_eqb (c d : QColor) : bool :=
  (red c =? red d)%nat && (green c =? green d)%nat && (blue c =? blue d)%nat.

Record QListWidgetItem : Type := mkItem {
  item_text : string;
  background : option QColor;
  foreground : option QColor
}.

(** [listWidget.addItem(text)] *)
Definition addItem (rows : list QListWidgetItem) (text : string)
  : list QListWidgetItem :=
  rows ++ [mkItem text None None].

Record QMimeData : Type := mkMime {
  md_image : option QImage;
  md_urls : option (list QUrl);
  md_text : option string
}.

(** ** [ClipboardManager] *)

Record ClipboardManager : Type := mkCM {
  settings : json;
  previous_text : option pyobj;
  history : list pyobj;
  listWidget : list QListWidgetItem
}.

(** [__init__], lines 111-115, with the value [load_settings()] returned. *)
Definition init (loaded : json) : ClipboardManager := mkCM loaded None [] [].

(** Line 220. *)
Definition image_path_of (image : QImage) : string :=
  ("Image which has no path (hash: " ++ png_md5_hexdigest image ++ ")")%string.

(** The test of line 222 on one stored entry. *)
Definition is_image_named (image_path : string) (stored : pyobj) : result bool :=
  x0 <- item0 stored ;;
  if py_eq x0 (PyStr "image")
  then x1 <- item1 stored ;; Ok (py_eq x1 (PyStr image_path))
  else Ok false.

(** [current_data] as lines 205-235 assign it, the early return of line 223
    left aside. *)
Definition classify (mime_data : QMimeData) : option pyobj :=
  match md_image mime_data with
  | Some image => Some (PyTuple3 "image" (image_path_of image) image)
  | None =>
      match md_urls mime_data with
      | Some urls => Some (PyTuple2 "urls" (concat ", " (map toString urls)))
      | None =>
          match md_text mime_data with
          | Some text => Some (PyTuple2 "text" text)
          | None => None
          end
      end
  end.

(** [current_data[1] if isinstance(current_data, tuple) else current_data] *)
Definition display (current_data : pyobj) : string :=
  match current_data with
  | PyStr s => s
  | PyTuple2 _ x1 => x1
  | PyTuple3 _ x1 _ => x1
  end.

(** [current_data != self.previous_text]; [x != None] holds for every
    tuple [x]. *)
Definition ne_previous (current_data : pyobj) (previous : option pyobj) : bool :=
  match previous with
  | None => true
  | Some prev => negb (py_eq current_data prev)
  end.

(** Lines 238-246. A tuple is truthy, [None] is not. *)
Definition observe (self : ClipboardManager) (current_data : option pyobj)
  : ClipboardManager :=
  match current_data with
  | None => self
  | Some cur =>
      if ne_previous cur (previous_text self) then
        match previous_text self with
        | None => mkCM (settings self) (Some cur) (history self) (listWidget self)
        | Some _ =>
            if negb (existsb (py_eq cur) (history self))
            then mkCM (settings self) (Some cur) (history self ++ [cur])
                   (addItem (addItem (listWidget self) (display cur)) "")
            else mkCM (settings self) (Some cur) (history self) (listWidget self)
        end
      else self
  end.

(** [check_clipboard], with the clipboard's [mimeData()] as argument. *)
Definition check_clipboard (self : ClipboardManager) (mime_data : QMimeData)
  : result ClipboardManager :=
  match md_image mime_data with
  | Some image =>
      let image_path := image_path_of image in
      found <- any_result (is_image_named image_path) (history self) ;;
      if found then Ok self
      else Ok (observe self (Some (PyTuple3 "image" image_path image)))
  | None => Ok (observe self (classify mime_data))
  end.

(** [clearHistory] *)
Definition clearHistory (self : ClipboardManager) : ClipboardManager :=
  mkCM (settings self) None [] [].

(** ** Search *)

Definition yellow : QColor := rgb 255 255 0.
Definition white : QColor := rgb 255 255 255.
Definition black : QColor := rgb 0 0 0.

Definition setColors (item : QListWidgetItem) (bg fg : QColor) : QListWidgetItem :=
  mkItem (item_text item) (Some bg) (Some fg).

(** The loop of [findInList] from row [i] on. [scrolled] is the row that
    [scrollToItem] was called with so far. *)
Fixpoint findInList_loop (search_term : string) (i : nat)
  (items : list QListWidgetItem) (first_match : bool) (scrolled : option nat)
  : list QListWidgetItem * option nat :=
  match items with
  | [] => ([], scrolled)
  | item :: rest =>
      if str_in search_term (lower (item_text item))
      then
        let scrolled' := if first_match then Some i else scrolled in
        let (rest', final) :=
          findInList_loop search_term (S i) rest false scrolled' in
        (setColors item yellow black :: rest', final)
      else
        let (rest', final) :=
          findInList_loop search_term (S i) rest first_match scrolled in
        (setColors item white black :: rest', final)
  end.

(** [findInList], with [self.searchField.text()] as argument; the second
    component is the row scrolled to the top, if any. *)
Definition findInList (self : ClipboardManager) (searchField_text : string)
  : ClipboardManager * option nat :=
  let search_term := lower searchField_text in
  let (items, scrolled) :=
    findInList_loop search_term 0 (listWidget self) true None in
  (mkCM (settings self) (previous_text self) (history self) items, scrolled).

Definition resetHighlighting (self : ClipboardManager) : ClipboardManager :=
  mkCM (settings self) (previous_text self) (history self)
    (map (fun item => setColors item white black) (listWidget self)).

(** ** Restore *)

(** [isinstance(stored, tuple) and stored[0] == tag and stored[1] == text] *)
Definition tuple_named (tag text : string) (stored : pyobj) : bool :=
  match stored with
  | PyStr _ => false
  | PyTuple2 x0 x1 => (x0 =? tag) && (x1 =? text)
  | PyTuple3 x0 x1 _ => (x0 =? tag) && (x1 =? text)
  end.

(** [stored[2]] *)
Definition item2 (stored : pyobj) : result QImage :=
  match stored with
  | PyTuple3 _ _ x2 => Ok x2
  | _ => Raise IndexError
  end.

(** The loop of lines 303-308: the image handed to [setPixmap], if the loop
    returns from the function. *)
Fixpoint stored_image (text : string) (history : list pyobj)
  : result (option QImage) :=
  match history with
  | [] => Ok None
  | stored :: rest =>
      if tuple_named "image" text stored
      then
        image <- item2 stored ;;
        if negb (isNull image) then Ok (Some image) else stored_image text rest
      else stored_image text rest
  end.

(** Line 311. *)
Definition urls_stored (text : string) (history : list pyobj) : bool :=
  existsb (fun stored =>
             match stored with
             | PyStr _ => false
             | PyTuple2 x0 x1 => (x0 =? "urls") && (text =? x1)
             | PyTuple3 x0 x1 _ => (x0 =? "urls") && (text =? x1)
             end) history.

(** Line 318. *)
Definition str_stored (text : string) (history : list pyobj) : bool :=
  existsb (fun stored =>
             match stored with
             | PyStr s => text =? s
             | _ => false
             end) history.

Definition image_suffixes : list string :=
  [".png"; ".jpg"; ".jpeg"; ".bmp"; ".gif"].

Definition setPixmap (image : QImage) : QMimeData := mkMime (Some image) None None.
Definition setUrls (urls : list QUrl) : QMimeData := mkMime None (Some urls) None.
Definition setText (text : string) : QMimeData := mkMime None None (Some text).

(** [copyToClipboard], with [item.text()] as argument: what the system
    clipboard holds when the method returns. *)
Definition copyToClipboard (self : ClipboardManager) (text : string)
  : result QMimeData :=
  found <- stored_image text (history self) ;;
  match found with
  | Some image => Ok (setPixmap image)
  | None =>
      if urls_stored text (history self) then
        let url := QUrl_of text in
        let url := if negb (isValid url) then QUrl_fromLocalFile text else url in
        Ok (setUrls [url])
      else if str_stored text (history self) then
        Ok (setText text)
      else if os_path_exists text && os_path_isfile text then
        let fallthrough := Ok (setUrls [QUrl_fromLocalFile text]) in
        if existsb (endswith (lower text)) image_suffixes then
          let image := QImage_of_file text in
          if negb (isNull image) then Ok (setPixmap image) else fallthrough
        else fallthrough
      else
        Ok (setText text)
  end.

(** ** Hotkey change *)

Record World : Type := mkWorld {
  manager : ClipboardManager;
  hotkeys : keyboard;
  settings_file : file_state
}.

(** How a slot of the settings dialog ends. *)
Inductive outcome : Type :=
| Information (message : string)
| Critical (message : string)
| Closed
| Raised (e : exn).

(** [new_hotkey == current_hotkey], a [str] against a loaded value. *)
Definition str_eq_json (s : string) (v : json) : bool :=
  match v with
  | JString t => s =? t
  | _ => false
  end.

Definition with_settings (self : ClipboardManager) (v : json) : ClipboardManager :=
  mkCM v (previous_text self) (history self) (listWidget self).

(** [setup_hotkey_thread]: the thread registers [self.settings["hotkey"]];
    what is raised inside the thread does not reach the caller. *)
Definition setup_hotkey_thread (w : World) : World :=
  match getitem (settings (manager w)) "hotkey" with
  | Ok (JString hotkey) =>
      match add_hotkey hotkey (hotkeys w) with
      | Ok k => mkWorld (manager w) k (settings_file w)
      | Raise _ => w
      end
  | _ => w
  end.

(** [update_hotkey]: the world when it returns or raises, and the exception
    if it raises. *)
Definition update_hotkey (w : World) (new_hotkey : string) : World * option exn :=
  match getitem (settings (manager w)) "hotkey" with
  | Raise e => (w, Some e)
  | Ok old =>
      match (if in_hotkeys old (hotkeys w)
             then remove_hotkey old (hotkeys w) else Ok (hotkeys w)) with
      | Raise e => (w, Some e)
      | Ok k1 =>
          let w1 := mkWorld (manager w) k1 (settings_file w) in
          match setitem (settings (manager w1)) "hotkey" (JString new_hotkey) with
          | Raise e => (w1, Some e)
          | Ok settings' =>
              let w2 := mkWorld (with_settings (manager w1) settings') k1
                          (settings_file w1) in
              match save_settings settings' (settings_file w2) with
              | Raise e => (w2, Some e)
              | Ok f =>
                  (setup_hotkey_thread (mkWorld (manager w2) k1 f), None)
              end
          end
      end
  end.

(** The [try] body of [apply_changes], lines 97-101. *)
Definition apply_changes_try (w : World) (new_hotkey : string) (current_hotkey : json)
  : World * option exn :=
  match add_hotkey new_hotkey (hotkeys w) with
  | Raise e => (w, Some e)
  | Ok k1 =>
      match remove_hotkey (JString new_hotkey) k1 with
      | Raise e => (mkWorld (manager w) k1 (settings_file w), Some e)
      | Ok k2 =>
          match remove_hotkey current_hotkey k2 with
          | Raise e => (mkWorld (manager w) k2 (settings_file w), Some e)
          | Ok k3 =>
              update_hotkey (mkWorld (manager w) k3 (settings_file w)) new_hotkey
          end
      end
  end.

(** [SettingsDialog.apply_changes], with [self.hotkey_input.text()] as
    argument. *)
Definition apply_changes (w : World) (new_hotkey : string) : World * outcome :=
  match getitem (settings (manager w)) "hotkey" with
  | Raise e => (w, Raised e)
  | Ok current_hotkey =>
      if str_eq_json new_hotkey current_hotkey
      then (w, Information "The new hotkey is the same as the current one")
      else
        match apply_changes_try w new_hotkey current_hotkey with
        | (w', None) => (w', Closed)
        | (w', Some ValueError) => (w', Critical "Invalid hotkey entered")
        | (w', Some e) => (w', Raised e)
        end
  end.

(** ** Runs of the poller *)

Inductive event : Type :=
| Tick (mime_data : QMimeData)
| ClearHistory.

Definition step (self : ClipboardManager) (ev : event) : result ClipboardManager :=
  match ev with
  | Tick mime_data => check_clipboard self mime_data
  | ClearHistory => Ok (clearHistory self)
  end.

Fixpoint run (self : ClipboardManager) (evs : list event) : result ClipboardManager :=
  match evs with
  | [] => Ok self
  | ev :: rest => self' <- step self ev ;; run self' rest
  end.

End Kovak.

(** ** A concrete platform, to run the definitions on

    Images are their pixel bytes, the digest is a stand-in, one file exists
    ([C:/notes.txt]), and the hotkey table is the list of registered
    names. *)

Definition sample_remove (v : json) (k : list string) : result (list string) :=
  match v with
  | JString h =>
      if existsb (String.eqb h) k
      then Ok (filter (fun x => negb (h =? x)) k)
      else Raise KeyError
  | _ => Raise KeyError
  end.

#[export] Instance sample : Platform := {|
  QImage := string;
  QImage_eq := String.eqb;
  isNull := fun image => image =? "";
  png_md5_hexdigest := fun image => image;
  QImage_of_file := fun _ => "";
  isValid := fun url =>
    match url with
    | QUrl_of text => str_in "://" text
    | QUrl_fromLocalFile _ => true
    end;
  toString := fun url =>
    match url with
    | QUrl_of text => text
    | QUrl_fromLocalFile path => ("file:///" ++ path)%string
    end;
  os_path_exists := fun path => path =? "C:/notes.txt";
  os_path_isfile := fun path => path =? "C:/notes.txt";
  keyboard := list string;
  add_hotkey := fun h k => if h =? "" then Raise ValueError else Ok (h :: k);
  remove_hotkey := sample_remove;
  in_hotkeys := fun v k =>
    match v with
    | JString h => existsb (String.eqb h) k
    | _ => false
    end
|}.

Definition text_on_clipboard {P : Platform} (text : string) : QMimeData :=
  mkMime None None (Some text).

Definition image_on_clipboard {P : Platform} (image : QImage) : QMimeData :=
  mkMime (Some image) None None.

(** ** Notions the properties are stated with *)

Section Notions.

Context {P : Platform}.

(** The three shapes the poller builds. *)
Definition poller_entry (e : pyobj) : Prop :=
  (exists text, e = PyTuple2 "text" text)
  \/ (exists joined, e = PyTuple2 "urls" joined)
  \/ (exists image_path image, e = PyTuple3 "image" image_path image).

(** Variant and identifying payload of a tuple entry: the text, the joined
    URLs or the label. *)
Definition ident (e : pyobj) : option (string * string) :=
  match e with
  | PyStr _ => None
  | PyTuple2 x0 x1 => Some (x0, x1)
  | PyTuple3 x0 x1 _ => Some (x0, x1)
  end.


(** The invariant of the poller's state. *)
Definition Inv (self : ClipboardManager) : Prop :=
  Forall poller_entry (history self)
  /\ NoDup (map ident (history self))
  /\ (previous_text self = None -> history self = []).

(** The label of the image on the clipboard is the label of a stored entry:
    the condition of line 222. *)
Definition image_known (mime_data : QMimeData) (history : list pyobj) : bool :=
  match md_image mime_data with
  | Some image => existsb (tuple_named "image" (image_path_of image)) history
  | None => false
  end.


(** Position of the first element of [l] that satisfies [p]. *)
Fixpoint first_index {A : Type} (p : A -> bool) (l : list A) : option nat :=
  match l with
  | [] => None
  | x :: rest => if p x then Some 0 else option_map S (first_index p rest)
  end.

(** The test of line 280 on one row, and what the loop body makes of the
    row. *)
Definition matches (search_term : string) (item : QListWidgetItem) : bool :=
  str_in search_term (lower (item_text item)).

Definition highlight (search_term : string) (item : QListWidgetItem)
  : QListWidgetItem :=
  if matches search_term item
  then setColors item yellow black
  else setColors item white black.



End Notions.

(** ** Concrete scenarios *)

Definition image_tick_events : list event :=
  [Tick (text_on_clipboard "a"); Tick (image_on_clipboard "pixels");
   Tick (text_on_clipboard "x")].

Definition image_tick_state : ClipboardManager :=
  mkCM default_settings (Some (PyTuple2 "text" "x"))
    [PyTuple3 "image" "Image which has no path (hash: pixels)" "pixels";
     PyTuple2 "text" "x"]
    [mkItem "Image which has no path (hash: pixels)" None None; mkItem "" None None;
     mkItem "x" None None; mkItem "" None None].

Definition path_text_events : list event :=
  [Tick (text_on_clipboard "a"); Tick (text_on_clipboard "C:/notes.txt")].

Definition path_text_state : ClipboardManager :=
  mkCM default_settings (Some (PyTuple2 "text" "C:/notes.txt"))
    [PyTuple2 "text" "C:/notes.txt"]
    [mkItem "C:/notes.txt" None None; mkItem "" None None].

Definition revisit_state : ClipboardManager :=
  mkCM default_settings (Some (PyTuple2 "text" "b"))
    [PyTuple2 "text" "C:/notes.txt"; PyTuple2 "text" "b"]
    [mkItem "C:/notes.txt" None None; mkItem "" None None;
     mkItem "b" None None; mkItem "" None None].

Definition fallback_events : list event :=
  [Tick (text_on_clipboard "a"); Tick (text_on_clipboard "not a real path")].

Definition fallback_state : ClipboardManager :=
  mkCM default_settings (Some (PyTuple2 "text" "not a real path"))
    [PyTuple2 "text" "not a real path"]
    [mkItem "not a real path" None None; mkItem "" None None].

Definition sample_world : World :=
  mkWorld (init default_settings) ["shift+space"] (FileJSON default_settings).


(** ** The window as a whole *)

Section Window.

Context {P : Platform}.

(** What the user and the timer do to the window: the timer's tick, the
    "Clear History" button, a click on a row, typing in the find dialog and
    closing it. *)
Inductive action : Type :=
| Poll (mime_data : QMimeData)
| ClearClicked
| RowClicked (text : string)
| FindTyped (searchField_text : string)
| FindRejected.

Definition act (self : ClipboardManager) (a : action) : result ClipboardManager :=
  match a with
  | Poll mime_data => check_clipboard self mime_data
  | ClearClicked => Ok (clearHistory self)
  | RowClicked text => _ <- copyToClipboard self text ;; Ok self
  | FindTyped searchField_text => Ok (fst (findInList self searchField_text))
  | FindRejected => Ok (resetHighlighting self)
  end.

Fixpoint acts (self : ClipboardManager) (l : list action) : result ClipboardManager :=
  match l with
  | [] => Ok self
  | a :: rest => self' <- act self a ;; acts self' rest
  end.

(** Number of timer ticks among the actions. *)
Fixpoint polls (l : list action) : nat :=
  match l with
  | [] => 0
  | Poll _ :: rest => S (polls rest)
  | _ :: rest => polls rest
  end.

(** The rows lines 244-245 add for the entries of a history. *)
Definition rows_of (h : list pyobj) : list string :=
  flat_map (fun e => [display e; ""]) h.

(** The label of an image entry is the one line 220 computes from its
    image. *)
Definition labelled (e : pyobj) : Prop :=
  match e with
  | PyTuple3 _ x1 x2 => x1 = image_path_of x2
  | _ => True
  end.

(** The invariant of the window: that of the poller, the labels, and the
    rows shown. *)
Definition WInv (self : ClipboardManager) : Prop :=
  Inv self
  /\ Forall labelled (history self)
  /\ map item_text (listWidget self) = rows_of (history self).

(** What [apply_changes] has no business with. *)
Definition poller_part (self : ClipboardManager)
  : option pyobj * list pyobj * list QListWidgetItem :=
  (previous_text self, history self, listWidget self).

(** [ClipboardManager.__init__]: [load_settings()] at line 111, the empty
    history of lines 114-115, and [setup_hotkey_thread] at line 128, where
    [self.settings["hotkey"]] is evaluated in the calling thread. *)
Definition startup (f : file_state) (k : keyboard) : result World :=
  loaded <- load_settings f ;;
  _ <- getitem loaded "hotkey" ;;
  Ok (setup_hotkey_thread (mkWorld (init loaded) k f)).

End Window.

Definition unreadable_world : World :=
  mkWorld (init default_settings) ["shift+space"] FileUnreadable.

Definition pictures_state : ClipboardManager :=
  mkCM default_settings (Some (PyTuple2 "urls" "https://example.org/a"))
    [PyTuple3 "image" "Image which has no path (hash: pixels)" "pixels";
     PyTuple2 "urls" "https://example.org/a"]
    [mkItem "Image which has no path (hash: pixels)" None None; mkItem "" None None;
     mkItem "https://example.org/a" None None; mkItem "" None None].

Definition pictures_actions : list action :=
  [Poll (text_on_clipboard "a"); Poll (image_on_clipboard "pixels");
   Poll (mkMime None (Some [QUrl_of "https://example.org/a"]) None)].

(** ** Strings *)

Example lower_mixed_case : lower "Apple Pie" = "apple pie".
Proof. reflexivity. Qed.

Example str_in_middle : str_in "ppl" "apple" = true /\ str_in "pla" "apple" = false.
Proof. split; reflexivity. Qed.

Example endswith_suffix :
  endswith "photo.png" ".png" = true /\ endswith "png" ".png" = false.
Proof. split; reflexivity. Qed.




(** ** The poller keeps its invariant *)

Section PollerFacts.

Context {P : Platform}.

Lemma py_eq_tuple2_refl (x0 x1 : string) :
  py_eq (PyTuple2 x0 x1) (PyTuple2 x0 x1) = true.
Proof. simpl. now rewrite !String.eqb_refl. Qed.

Lemma classify_entry (mime_data : QMimeData) (cur : pyobj) :
  classify mime_data = Some cur -> poller_entry cur.
Proof.
  unfold classify, poller_entry.
  destruct (md_image mime_data) as [image|].
  - intros [= <-]. right; right. eauto.
  - destruct (md_urls mime_data) as [urls|].
    + intros [= <-]. right; left. eauto.
    + destruct (md_text mime_data) as [text|]; [|discriminate].
      intros [= <-]. left. eauto.
Qed.

(** On well-shaped histories the test of line 222 never raises and is the
    plain search for the label. *)
Lemma any_image_named (image_path : string) (h : list pyobj) :
  Forall poller_entry h ->
  any_result (is_image_named image_path) h
  = Ok (existsb (tuple_named "image" image_path) h).
Proof.
  induction 1 as [|e h He _ IH]; [reflexivity|].
  cbn [any_result existsb].
  destruct He as [[t ->] | [[u ->] | [l [img ->]]]]; cbn; rewrite ?IH.
  - reflexivity.
  - reflexivity.
  - destruct (l =? image_path); reflexivity.
Qed.


(** A text or URL snapshot that [in] does not find has a fresh identity. *)
Lemma fresh_tuple2 (x0 x1 : string) (h : list pyobj) :
  Forall poller_entry h ->
  x0 <> "image" ->
  existsb (py_eq (PyTuple2 x0 x1)) h = false ->
  ~ In (Some (x0, x1)) (map ident h).
Proof.
  intros Hh Hx0. induction Hh as [|e h He _ IH]; [intros _ []|].
  cbn [existsb map]. rewrite orb_false_iff. intros [He1 Hrest] [Hin|Hin].
  - destruct He as [[t ->] | [[u ->] | [l [img ->]]]]; cbn in Hin, He1;
      injection Hin as <- <-; cbn in He1; rewrite ?String.eqb_refl in He1.
    + discriminate.
    + discriminate.
    + now apply Hx0.
  - now apply IH.
Qed.

(** An image whose label line 222 does not find has a fresh identity. *)
Lemma fresh_image (image_path : string) (h : list pyobj) :
  existsb (tuple_named "image" image_path) h = false ->
  ~ In (Some ("image", image_path)) (map ident h).
Proof.
  induction h as [|e h IH]; [intros _ []|].
  cbn [existsb map]. rewrite orb_false_iff. intros [He Hrest] [Hin|Hin].
  - destruct e as [s|x0 x1|x0 x1 x2]; cbn in Hin, He; try discriminate;
      injection Hin as -> ->; cbn in He; rewrite String.eqb_refl in He;
      discriminate.
  - now apply IH.
Qed.

Lemma NoDup_snoc {A : Type} (l : list A) (x : A) :
  NoDup l -> ~ In x l -> NoDup (l ++ [x]).
Proof.
  intros Hl Hx. induction Hl as [|y l Hy Hl IH]; cbn.
  - constructor; [intros []|constructor].
  - constructor.
    + rewrite in_app_iff. intros [H|[H|[]]]; [now apply Hy|].
      subst. apply Hx. now left.
    + apply IH. intros H. apply Hx. now right.
Qed.

(** Lines 238-246 keep the invariant, provided an image snapshot passed the
    test of line 222. *)
Lemma observe_Inv (self : ClipboardManager) (cur : pyobj) :
  Inv self ->
  poller_entry cur ->
  (forall x1 x2, cur = PyTuple3 "image" x1 x2 ->
                 existsb (tuple_named "image" x1) (history self) = false) ->
  Inv (observe self (Some cur)).
Proof.
  intros (Hshape & Hnodup & Hnone) Hcur Himage.
  unfold observe.
  destruct (ne_previous cur (previous_text self)); [|now repeat split].
  destruct (previous_text self) as [prev|] eqn:Hprev.
  - destruct (existsb (py_eq cur) (history self)) eqn:Hin; cbn [negb].
    + repeat split; cbn; auto. discriminate.
    + repeat split; cbn; try discriminate.
      * apply Forall_app. split; [assumption|]. now constructor.
      * rewrite map_app. cbn. apply NoDup_snoc; [assumption|].
        destruct Hcur as [[t ->] | [[u ->] | [l [img ->]]]]; cbn.
        -- apply fresh_tuple2; [assumption|discriminate|assumption].
        -- apply fresh_tuple2; [assumption|discriminate|assumption].
        -- apply fresh_image. now apply (Himage l img).
  - repeat split; cbn; auto.
Qed.

Lemma check_clipboard_Inv (self : ClipboardManager) (mime_data : QMimeData) :
  Inv self ->
  exists self', check_clipboard self mime_data = Ok self' /\ Inv self'.
Proof.
  intros HI. unfold check_clipboard.
  destruct (md_image mime_data) as [image|] eqn:Himg.
  - rewrite any_image_named by apply HI. cbn [bind].
    destruct (existsb _ (history self)) eqn:Hfound.
    + eauto.
    + eexists. split; [reflexivity|].
      apply observe_Inv; [assumption| |].
      * right; right. eauto.
      * now intros x1 x2 [= <- <-].
  - eexists. split; [reflexivity|].
    destruct (classify mime_data) as [cur|] eqn:Hc; [|assumption].
    apply observe_Inv; [assumption|now apply classify_entry with mime_data|].
    intros x1 x2 ->. unfold classify in Hc. rewrite Himg in Hc.
    destruct (md_urls mime_data); [discriminate|].
    destruct (md_text mime_data); discriminate.
Qed.

Lemma init_Inv (loaded : json) : Inv (init loaded).
Proof. repeat split; cbn; constructor. Qed.

Lemma clearHistory_Inv (self : ClipboardManager) : Inv (clearHistory self).
Proof. repeat split; cbn; constructor. Qed.

Lemma step_Inv (self : ClipboardManager) (ev : event) :
  Inv self -> exists self', step self ev = Ok self' /\ Inv self'.
Proof.
  intros HI. destruct ev as [mime_data|]; cbn.
  - now apply check_clipboard_Inv.
  - eexists. split; [reflexivity|apply clearHistory_Inv].
Qed.

(** Every run of the poller returns, in a state that satisfies the
    invariant. *)
Lemma run_Inv (evs : list event) (self : ClipboardManager) :
  Inv self -> exists self', run self evs = Ok self' /\ Inv self'.
Proof.
  revert self. induction evs as [|ev evs IH]; intros self HI; cbn.
  - eauto.
  - destruct (step_Inv self ev HI) as (self1 & -> & HI1). cbn. now apply IH.
Qed.

Lemma reachable_Inv (loaded : json) (evs : list event) (self : ClipboardManager) :
  run (init loaded) evs = Ok self -> Inv self.
Proof.
  intros Hrun. destruct (run_Inv evs (init loaded) (init_Inv loaded)) as (self' & H & HI).
  rewrite Hrun in H. now injection H as ->.
Qed.

End PollerFacts.

(** ** Counting entries of a history *)

Section Counting.

Context {P : Platform}.







(** After a tick that read [text], a second tick reading it changes
    nothing. *)
Lemma observe_twice (self : ClipboardManager) (cur : pyobj) :
  py_eq cur cur = true ->
  previous_text (observe self (Some cur)) = Some cur \/ observe self (Some cur) = self ->
  observe (observe self (Some cur)) (Some cur) = observe self (Some cur).
Proof.
  intros Hrefl [Hprev | Hsame].
  - set (self1 := observe self (Some cur)) in *.
    unfold observe at 1. rewrite Hprev. cbn. now rewrite Hrefl.
  - now rewrite !Hsame.
Qed.

Lemma observe_previous (self : ClipboardManager) (cur : pyobj) :
  previous_text (observe self (Some cur)) = Some cur \/ observe self (Some cur) = self.
Proof.
  unfold observe. destruct (ne_previous cur (previous_text self)); [|now right].
  left. destruct (previous_text self); [|reflexivity].
  now destruct (negb (existsb (py_eq cur) (history self))).
Qed.

End Counting.

(** ** What one tick does *)

Section Ticks.

Context {P : Platform}.

Lemma str_stored_none (text : string) (h : list pyobj) :
  Forall poller_entry h -> str_stored text h = false.
Proof.
  unfold str_stored. induction 1 as [|e h He _ IH]; [reflexivity|].
  cbn [existsb]. rewrite IH.
  now destruct He as [[t ->] | [[u ->] | [l [img ->]]]].
Qed.

Lemma observe_sets_previous (self : ClipboardManager) (cur : pyobj) :
  ne_previous cur (previous_text self) = true ->
  previous_text (observe self (Some cur)) = Some cur.
Proof.
  intros Hne. unfold observe. rewrite Hne.
  destruct (previous_text self); [|reflexivity].
  now destruct (negb (existsb (py_eq cur) (history self))).
Qed.

(** [observe] appends at most the snapshot, and only one that differs from
    a [previous_text] that is set. *)
Lemma observe_history (self : ClipboardManager) (cur : pyobj) :
  history (observe self (Some cur)) = history self
  \/ (exists prev, previous_text self = Some prev /\ py_eq cur prev = false)
     /\ existsb (py_eq cur) (history self) = false
     /\ history (observe self (Some cur)) = history self ++ [cur].
Proof.
  unfold observe. destruct (ne_previous cur (previous_text self)) eqn:Hne;
    [|now left].
  destruct (previous_text self) as [prev|]; [|now left].
  destruct (existsb (py_eq cur) (history self)); cbn [negb]; [now left|].
  right. repeat split. exists prev. split; [reflexivity|].
  cbn in Hne. now destruct (py_eq cur prev).
Qed.

Lemma check_clipboard_history (self self' : ClipboardManager) (mime_data : QMimeData) :
  check_clipboard self mime_data = Ok self' ->
  history self' = history self
  \/ exists prev snap,
       previous_text self = Some prev
       /\ classify mime_data = Some snap
       /\ py_eq snap prev = false
       /\ history self' = history self ++ [snap].
Proof.
  unfold check_clipboard, classify.
  destruct (md_image mime_data) as [image|].
  - destruct (any_result _ (history self)) as [[|]|e]; cbn [bind];
      [intros [= <-]; now left | | discriminate].
    intros [= <-].
    destruct (observe_history self (PyTuple3 "image" (image_path_of image) image))
      as [H | ((prev & Hp & Hne) & _ & H)]; [now left|].
    right. now exists prev, (PyTuple3 "image" (image_path_of image) image).
  - intros [= <-].
    destruct (md_urls mime_data) as [urls|]; [|destruct (md_text mime_data) as [text|]].
    + destruct (observe_history self (PyTuple2 "urls" (concat ", " (map toString urls))))
        as [H | ((prev & Hp & Hne) & _ & H)]; [now left|].
      right. now exists prev, (PyTuple2 "urls" (concat ", " (map toString urls))).
    + destruct (observe_history self (PyTuple2 "text" text))
        as [H | ((prev & Hp & Hne) & _ & H)]; [now left|].
      right. now exists prev, (PyTuple2 "text" text).
    + now left.
Qed.

(** With [previous_text] unset and an empty history, a tick records the
    snapshot and appends nothing. *)
Lemma first_tick (self : ClipboardManager) (mime_data : QMimeData) (snap : pyobj) :
  previous_text self = None ->
  history self = [] ->
  classify mime_data = Some snap ->
  check_clipboard self mime_data
  = Ok (mkCM (settings self) (Some snap) [] (listWidget self)).
Proof.
  intros Hprev Hhist. unfold check_clipboard, classify.
  destruct (md_image mime_data) as [image|].
  - intros [= <-]. rewrite Hhist. cbn. unfold observe.
    now rewrite Hprev, Hhist.
  - intros H. unfold observe. rewrite H, Hprev. cbn. now rewrite Hhist.
Qed.

End Ticks.

(** ** The claims about the poller and the history *)

(** C1: after [clearHistory] the history is empty and [previous_text] is
    unset; the next tick, whatever actionable content the clipboard holds
    (in particular the content it held before the clear), records that
    snapshot as [previous_text] and appends nothing, so the history is
    still empty after that tick. *)
Theorem clearHistory_resets_baseline {P : Platform}
  (self : ClipboardManager) (mime_data : QMimeData) (snap : pyobj) :
  classify mime_data = Some snap ->
  history (clearHistory self) = []
  /\ previous_text (clearHistory self) = None
  /\ exists self',
       check_clipboard (clearHistory self) mime_data = Ok self'
       /\ previous_text self' = Some snap
       /\ history self' = []
       /\ listWidget self' = [].
Proof.
  intros Hsnap. split; [reflexivity|]. split; [reflexivity|].
  eexists. split.
  - apply (first_tick (clearHistory self) mime_data snap);
      [reflexivity|reflexivity|assumption].
  - now cbn.
Qed.

(** History was [("text", "A")], [clearHistory] ran, the clipboard still
    holds "A": the history stays empty. *)
Lemma clearHistory_resets_baseline_witness :
  classify (text_on_clipboard "A") = Some (PyTuple2 "text" "A")
  /\ exists self',
       check_clipboard
         (clearHistory
            (mkCM default_settings (Some (PyTuple2 "text" "A"))
               [PyTuple2 "text" "A"] [mkItem "A" None None; mkItem "" None None]))
         (text_on_clipboard "A") = Ok self'
       /\ previous_text self' = Some (PyTuple2 "text" "A")
       /\ history self' = []
       /\ listWidget self' = [].
Proof.
  split; [reflexivity|].
  apply (clearHistory_resets_baseline
           (mkCM default_settings (Some (PyTuple2 "text" "A"))
              [PyTuple2 "text" "A"] [mkItem "A" None None; mkItem "" None None])
           (text_on_clipboard "A")).
  reflexivity.
Defined.


(** C3: when [previous_text] is unset, the tick that first reads actionable
    content records the snapshot and appends nothing; the history is empty
    before and after it, and the tick after it appends only a snapshot that
    differs from the recorded one. *)
Theorem first_observation_is_not_appended {P : Platform}
  (loaded : json) (evs : list event) (self : ClipboardManager)
  (mime_data : QMimeData) (snap : pyobj) :
  run (init loaded) evs = Ok self ->
  previous_text self = None ->
  classify mime_data = Some snap ->
  exists self',
    check_clipboard self mime_data = Ok self'
    /\ previous_text self' = Some snap
    /\ history self = []
    /\ history self' = []
    /\ forall mime_data2 self2,
         check_clipboard self' mime_data2 = Ok self2 ->
         history self2 = []
         \/ exists snap2,
              classify mime_data2 = Some snap2
              /\ py_eq snap2 snap = false
              /\ history self2 = [snap2].
Proof.
  intros Hrun Hprev Hsnap.
  assert (Hhist : history self = []).
  { now apply (reachable_Inv loaded evs self Hrun). }
  eexists. split; [now apply (first_tick self mime_data snap)|].
  cbn. repeat split; try assumption.
  intros mime_data2 self2 H2.
  apply check_clipboard_history in H2 as [H | (prev & snap2 & Hp & Hc & Hne & H)];
    cbn in *.
  - now left.
  - right. exists snap2. injection Hp as <-. now repeat split.
Qed.

(** The clipboard already holds "hello" when polling starts. *)
Lemma first_observation_is_not_appended_witness :
  run (init default_settings) [] = Ok (init default_settings)
  /\ previous_text (init default_settings) = None
  /\ classify (text_on_clipboard "hello") = Some (PyTuple2 "text" "hello")
  /\ exists self',
       check_clipboard (init default_settings) (text_on_clipboard "hello") = Ok self'
       /\ previous_text self' = Some (PyTuple2 "text" "hello")
       /\ history (init default_settings) = []
       /\ history self' = []
       /\ forall mime_data2 self2,
            check_clipboard self' mime_data2 = Ok self2 ->
            history self2 = []
            \/ exists snap2,
                 classify mime_data2 = Some snap2
                 /\ py_eq snap2 (PyTuple2 "text" "hello") = false
                 /\ history self2 = [snap2].
Proof.
  split; [reflexivity|]. split; [reflexivity|]. split; [reflexivity|].
  apply (first_observation_is_not_appended default_settings []
           (init default_settings) (text_on_clipboard "hello")); reflexivity.
Defined.

(** C4, as the code has it: a tick whose snapshot differs from
    [previous_text] sets [previous_text] to the snapshot, whether or not the
    snapshot is already in the history, unless the clipboard holds an image
    whose label is already the label of a stored entry; that tick returns at
    line 223 and changes nothing. *)
Theorem previous_text_updated_unless_image_known {P : Platform}
  (loaded : json) (evs : list event) (self : ClipboardManager)
  (mime_data : QMimeData) (snap : pyobj) :
  run (init loaded) evs = Ok self ->
  classify mime_data = Some snap ->
  ne_previous snap (previous_text self) = true ->
  exists self',
    check_clipboard self mime_data = Ok self'
    /\ if image_known mime_data (history self)
       then self' = self
       else previous_text self' = Some snap.
Proof.
  intros Hrun Hsnap Hne.
  pose proof (reachable_Inv loaded evs self Hrun) as HI.
  pose proof Hsnap as Hshape. unfold classify in Hshape.
  unfold check_clipboard, image_known.
  destruct (md_image mime_data) as [image|].
  - injection Hshape as <-.
    rewrite any_image_named by apply HI. cbn [bind].
    destruct (existsb _ (history self)).
    + now exists self.
    + eexists. split; [reflexivity|]. now apply observe_sets_previous.
  - eexists. split; [reflexivity|].
    rewrite Hsnap. now apply observe_sets_previous.
Qed.

(** The ticks "a", "C:/notes.txt", "b", then "C:/notes.txt" again: the
    snapshot is already in the history and is recorded all the same. *)
Lemma previous_text_updated_unless_image_known_witness :
  run (init default_settings) (path_text_events ++ [Tick (text_on_clipboard "b")])
  = Ok revisit_state
  /\ classify (text_on_clipboard "C:/notes.txt") = Some (PyTuple2 "text" "C:/notes.txt")
  /\ ne_previous (PyTuple2 "text" "C:/notes.txt") (previous_text revisit_state) = true
  /\ exists self',
       check_clipboard revisit_state (text_on_clipboard "C:/notes.txt") = Ok self'
       /\ previous_text self' = Some (PyTuple2 "text" "C:/notes.txt").
Proof.
  split; [reflexivity|]. split; [reflexivity|]. split; [reflexivity|].
  apply (previous_text_updated_unless_image_known default_settings
           (path_text_events ++ [Tick (text_on_clipboard "b")]) revisit_state
           (text_on_clipboard "C:/notes.txt")
           (PyTuple2 "text" "C:/notes.txt")); reflexivity.
Defined.

(** C4 fails for images: after the ticks "a", image, "x" the history holds
    the image; the next tick reads the same image, which differs from
    [previous_text] = ("text", "x"), and [previous_text] is left as it
    was. *)
Lemma image_tick_leaves_previous_text :
  run (init default_settings) image_tick_events = Ok image_tick_state
  /\ classify (image_on_clipboard "pixels")
     = Some (PyTuple3 "image" "Image which has no path (hash: pixels)" "pixels")
  /\ ne_previous
       (PyTuple3 "image" "Image which has no path (hash: pixels)" "pixels")
       (previous_text image_tick_state) = true
  /\ check_clipboard image_tick_state (image_on_clipboard "pixels")
     = Ok image_tick_state
  /\ previous_text image_tick_state
     <> Some (PyTuple3 "image" "Image which has no path (hash: pixels)" "pixels").
Proof.
  repeat split; try reflexivity. discriminate.
Qed.

(** C10: every entry of the history of every run is one of the tuples
    [("text", s)], [("urls", s)] and [("image", label, image)], never a bare
    [str]; so the test of line 318 of [copyToClipboard], which looks for a
    stored [str] equal to the clicked text, finds nothing. *)
Theorem history_holds_tagged_tuples_only {P : Platform}
  (loaded : json) (evs : list event) :
  exists self,
    run (init loaded) evs = Ok self
    /\ Forall poller_entry (history self)
    /\ Forall (fun stored => isinstance_str stored = false) (history self)
    /\ forall text, str_stored text (history self) = false.
Proof.
  destruct (run_Inv evs (init loaded) (init_Inv loaded)) as (self & Hrun & HI).
  exists self. destruct HI as (Hshape & _ & _).
  repeat split; try assumption.
  - apply Forall_impl with (2 := Hshape).
    now intros e [[t ->] | [[u ->] | [l [img ->]]]].
  - intros text. now apply str_stored_none.
Qed.

(** ** Restore *)

Section Restore.

Context {P : Platform}.

Lemma stored_image_none (text : string) (h : list pyobj) :
  existsb (tuple_named "image" text) h = false ->
  stored_image text h = Ok None.
Proof.
  induction h as [|stored h IH]; [reflexivity|].
  cbn [existsb stored_image]. rewrite orb_false_iff. intros [-> Hrest].
  now apply IH.
Qed.

(** On well-shaped histories the loop of lines 303-308 never raises. *)
Lemma stored_image_returns (text : string) (h : list pyobj) :
  Forall poller_entry h -> exists found, stored_image text h = Ok found.
Proof.
  induction 1 as [|stored h He _ IH]; [now exists None|].
  cbn [stored_image]. destruct (tuple_named "image" text stored) eqn:Hnamed;
    [|assumption].
  destruct He as [[t ->] | [[u ->] | [l [img ->]]]]; try discriminate.
  cbn. destruct (isNull img); cbn; [assumption|now exists (Some img)].
Qed.

Lemma copyToClipboard_returns (self : ClipboardManager) (row : string) :
  Forall poller_entry (history self) ->
  exists clipboard, copyToClipboard self row = Ok clipboard.
Proof.
  intros Hshape. unfold copyToClipboard.
  destruct (stored_image_returns row (history self) Hshape) as [found ->].
  cbn [bind]. destruct found as [image|]; [eauto|].
  destruct (urls_stored row (history self)); [eauto|].
  destruct (str_stored row (history self)); [eauto|].
  destruct (os_path_exists row && os_path_isfile row); [|eauto].
  destruct (existsb (endswith (lower row)) image_suffixes); [|eauto].
  destruct (negb (isNull (QImage_of_file row))); eauto.
Qed.

End Restore.

(** C8: a clicked row that is no stored image label, no stored URL string
    and no existing regular file is written to the clipboard as plain text,
    also when it is the content of a stored text entry; and every click
    returns with some content on the clipboard. *)
Theorem restore_falls_back_to_plain_text {P : Platform}
  (loaded : json) (evs : list event) (self : ClipboardManager) (text : string) :
  run (init loaded) evs = Ok self ->
  existsb (tuple_named "image" text) (history self) = false ->
  urls_stored text (history self) = false ->
  os_path_exists text && os_path_isfile text = false ->
  copyToClipboard self text = Ok (setText text)
  /\ forall row, exists clipboard, copyToClipboard self row = Ok clipboard.
Proof.
  intros Hrun Himage Hurls Hfile. split.
  - unfold copyToClipboard.
    rewrite (stored_image_none text (history self) Himage). cbn [bind].
    rewrite Hurls, Hfile. now destruct (str_stored text (history self)).
  - intros row. apply copyToClipboard_returns.
    apply (reachable_Inv loaded evs self Hrun).
Qed.

(** The history text entry "not a real path" is restored as plain text. *)
Lemma restore_falls_back_to_plain_text_witness :
  run (init default_settings) fallback_events = Ok fallback_state
  /\ In (PyTuple2 "text" "not a real path") (history fallback_state)
  /\ copyToClipboard fallback_state "not a real path"
     = Ok (setText "not a real path").
Proof.
  split; [reflexivity|]. split; [now left|].
  apply (restore_falls_back_to_plain_text default_settings fallback_events
           fallback_state "not a real path"); reflexivity.
Defined.

(** C5 does not hold of the code: the history holds the text entry
    "C:/notes.txt", that file exists, and clicking its row puts a file URL
    on the clipboard, not the text. The test of line 318 looks for a stored
    [str], and the poller stores text as [("text", text)]. *)
Theorem restore_of_text_entry_naming_a_file :
  run (init default_settings) path_text_events = Ok path_text_state
  /\ In (PyTuple2 "text" "C:/notes.txt") (history path_text_state)
  /\ str_stored "C:/notes.txt" (history path_text_state) = false
  /\ copyToClipboard path_text_state "C:/notes.txt"
     = Ok (setUrls [QUrl_fromLocalFile "C:/notes.txt"])
  /\ copyToClipboard path_text_state "C:/notes.txt"
     <> Ok (setText "C:/notes.txt").
Proof.
  split; [reflexivity|]. split; [now left|]. split; [reflexivity|].
  split; [reflexivity|]. discriminate.
Qed.

(** ** The claims about the settings *)



(** Only [FileNotFoundError] and [JSONDecodeError] are caught. *)
Example load_settings_unreadable :
  load_settings FileUnreadable = Raise PermissionError.
Proof. reflexivity. Qed.


(** C9: when the text of the dialog equals [settings["hotkey"]],
    [apply_changes] shows the information box and returns; the hotkey table,
    the settings and the settings file are as before. *)
Theorem same_hotkey_changes_nothing {P : Platform}
  (w : World) (new_hotkey : string) :
  getitem (settings (manager w)) "hotkey" = Ok (JString new_hotkey) ->
  apply_changes w new_hotkey
  = (w, Information "The new hotkey is the same as the current one").
Proof.
  intros Hcur. unfold apply_changes. rewrite Hcur. cbn [str_eq_json].
  now rewrite String.eqb_refl.
Qed.

Lemma same_hotkey_changes_nothing_witness :
  getitem (settings (manager sample_world)) "hotkey" = Ok (JString "shift+space")
  /\ apply_changes sample_world "shift+space"
     = (sample_world, Information "The new hotkey is the same as the current one").
Proof.
  split; [reflexivity|].
  apply (same_hotkey_changes_nothing sample_world "shift+space"). reflexivity.
Defined.

Example apply_changes_new_hotkey :
  apply_changes sample_world "ctrl+k"
  = (mkWorld (init (JObject [("hotkey", JString "ctrl+k")])) ["ctrl+k"]
       (FileJSON (JObject [("hotkey", JString "ctrl+k")])),
     Closed).
Proof. reflexivity. Qed.

Example apply_changes_invalid_hotkey :
  apply_changes sample_world ""
  = (sample_world, Critical "Invalid hotkey entered").
Proof. reflexivity. Qed.

(** ** Search *)

Section Search.

Context {P : Platform}.

Lemma findInList_loop_items (search_term : string) (items : list QListWidgetItem) :
  forall i first_match scrolled,
    fst (findInList_loop search_term i items first_match scrolled)
    = map (highlight search_term) items.
Proof.
  induction items as [|item rest IH]; intros i first_match scrolled;
    [reflexivity|].
  cbn [findInList_loop map]. unfold highlight at 1, matches.
  destruct (str_in search_term (lower (item_text item))).
  - specialize (IH (S i) false (if first_match then Some i else scrolled)).
    destruct (findInList_loop search_term (S i) rest false _). cbn in *.
    now rewrite IH.
  - specialize (IH (S i) first_match scrolled).
    destruct (findInList_loop search_term (S i) rest first_match scrolled).
    cbn in *. now rewrite IH.
Qed.

Lemma findInList_loop_scrolled (search_term : string) (items : list QListWidgetItem) :
  forall i first_match scrolled,
    snd (findInList_loop search_term i items first_match scrolled)
    = if first_match
      then match first_index (matches search_term) items with
           | Some k => Some (i + k)
           | None => scrolled
           end
      else scrolled.
Proof.
  induction items as [|item rest IH]; intros i first_match scrolled.
  - now destruct first_match.
  - cbn [findInList_loop first_index]. unfold matches at 1.
    destruct (str_in search_term (lower (item_text item))).
    + specialize (IH (S i) false (if first_match then Some i else scrolled)).
      destruct (findInList_loop search_term (S i) rest false _). cbn in *.
      rewrite IH. destruct first_match; [|reflexivity].
      now rewrite Nat.add_0_r.
    + specialize (IH (S i) first_match scrolled).
      destruct (findInList_loop search_term (S i) rest first_match scrolled).
      cbn in *. rewrite IH. destruct first_match; [|reflexivity].
      destruct (first_index (matches search_term) rest); cbn; [|reflexivity].
      now rewrite Nat.add_succ_r.
Qed.




End Search.


(** ** Beyond the claims: the window's invariant *)

Section WindowFacts.

Context {P : Platform}.

(** The three ways lines 238-246 can end. *)
Lemma observe_cases (self : ClipboardManager) (cur : pyobj) :
  observe self (Some cur) = self
  \/ observe self (Some cur)
     = mkCM (settings self) (Some cur) (history self) (listWidget self)
  \/ (previous_text self <> None
      /\ observe self (Some cur)
         = mkCM (settings self) (Some cur) (history self ++ [cur])
             (addItem (addItem (listWidget self) (display cur)) "")).
Proof.
  unfold observe. destruct (ne_previous cur (previous_text self)); [|now left].
  destruct (previous_text self) as [prev|]; [|now right; left].
  destruct (negb (existsb (py_eq cur) (history self))).
  - right; right. split; [discriminate|reflexivity].
  - right; left. reflexivity.
Qed.

Lemma check_clipboard_cases (self self' : ClipboardManager) (mime_data : QMimeData) :
  check_clipboard self mime_data = Ok self' ->
  self' = self
  \/ exists snap,
       classify mime_data = Some snap
       /\ (self' = mkCM (settings self) (Some snap) (history self) (listWidget self)
           \/ (previous_text self <> None
               /\ self' = mkCM (settings self) (Some snap) (history self ++ [snap])
                            (addItem (addItem (listWidget self) (display snap)) ""))).
Proof.
  unfold check_clipboard.
  destruct (md_image mime_data) as [image|] eqn:Himg.
  - destruct (any_result _ (history self)) as [[|]|e]; cbn [bind];
      [intros [= <-]; now left | | discriminate].
    intros [= <-].
    destruct (observe_cases self (PyTuple3 "image" (image_path_of image) image))
      as [H | H]; [now left|].
    right. exists (PyTuple3 "image" (image_path_of image) image).
    split; [unfold classify; now rewrite Himg | exact H].
  - intros [= <-]. destruct (classify mime_data) as [snap|]; [|now left].
    destruct (observe_cases self snap) as [H | H]; [now left|].
    right. now exists snap.
Qed.

Lemma classify_labelled (mime_data : QMimeData) (snap : pyobj) :
  classify mime_data = Some snap -> labelled snap.
Proof.
  unfold classify. destruct (md_image mime_data); [now intros [= <-]|].
  destruct (md_urls mime_data); [now intros [= <-]|].
  destruct (md_text mime_data); [now intros [= <-]|discriminate].
Qed.

Lemma rows_of_app (h1 h2 : list pyobj) :
  rows_of (h1 ++ h2) = rows_of h1 ++ rows_of h2.
Proof. apply flat_map_app. Qed.

Lemma rows_of_length (h : list pyobj) :
  List.length (rows_of h) = 2 * List.length h.
Proof.
  induction h as [|e h IH]; [reflexivity|].
  change (rows_of (e :: h)) with ([display e; ""] ++ rows_of h).
  rewrite List.length_app, IH. cbn. lia.
Qed.

Lemma findInList_items (self : ClipboardManager) (query : string) :
  listWidget (fst (findInList self query))
  = map (highlight (lower query)) (listWidget self).
Proof.
  unfold findInList.
  pose proof (findInList_loop_items (lower query) (listWidget self) 0 true None) as H.
  now destruct (findInList_loop (lower query) 0 (listWidget self) true None).
Qed.

Lemma findInList_scrolled (self : ClipboardManager) (query : string) :
  snd (findInList self query)
  = first_index (matches (lower query)) (listWidget self).
Proof.
  unfold findInList.
  pose proof (findInList_loop_scrolled (lower query) (listWidget self) 0 true None) as H.
  destruct (findInList_loop (lower query) 0 (listWidget self) true None).
  cbn in *. rewrite H. now destruct (first_index _ (listWidget self)).
Qed.

Lemma findInList_poller (self : ClipboardManager) (query : string) :
  settings (fst (findInList self query)) = settings self
  /\ previous_text (fst (findInList self query)) = previous_text self
  /\ history (fst (findInList self query)) = history self.
Proof.
  unfold findInList.
  now destruct (findInList_loop (lower query) 0 (listWidget self) true None).
Qed.

Lemma highlight_text (search_term : string) (item : QListWidgetItem) :
  item_text (highlight search_term item) = item_text item.
Proof. unfold highlight. now destruct (matches search_term item). Qed.

Lemma findInList_texts (self : ClipboardManager) (query : string) :
  map item_text (listWidget (fst (findInList self query)))
  = map item_text (listWidget self).
Proof.
  rewrite findInList_items, map_map. apply map_ext, highlight_text.
Qed.

Lemma init_WInv (loaded : json) : WInv (init loaded).
Proof.
  split; [apply init_Inv|]. split; [constructor|reflexivity].
Qed.

Lemma WInv_same_history (self self' : ClipboardManager) :
  WInv self ->
  history self' = history self ->
  map item_text (listWidget self') = map item_text (listWidget self) ->
  (previous_text self' = None -> previous_text self = None) ->
  WInv self'.
Proof.
  intros ((Hshape & Hnodup & Hnone) & Hlab & Hrows) Hh Hr Hp.
  unfold WInv, Inv. rewrite Hh, Hr. repeat split; try assumption.
  intros H. now apply Hnone, Hp.
Qed.

Lemma check_clipboard_WInv (self : ClipboardManager) (mime_data : QMimeData) :
  WInv self ->
  exists self', check_clipboard self mime_data = Ok self' /\ WInv self'.
Proof.
  intros HW. pose proof HW as (HI & Hlab & Hrows).
  destruct (check_clipboard_Inv self mime_data HI) as (self' & Hc & HI').
  exists self'. split; [assumption|]. split; [assumption|].
  apply check_clipboard_cases in Hc
    as [-> | (snap & Hsnap & [-> | [_ ->]])]; cbn [history listWidget].
  - now split.
  - now split.
  - split.
    + apply Forall_app. split; [assumption|].
      constructor; [now apply classify_labelled with mime_data|constructor].
    + unfold addItem. rewrite !map_app, rows_of_app, Hrows. cbn.
      now rewrite <- app_assoc.
Qed.

Lemma act_WInv (self : ClipboardManager) (a : action) :
  WInv self -> exists self', act self a = Ok self' /\ WInv self'.
Proof.
  intros HW. destruct a as [mime_data| |text|query|]; cbn [act].
  - now apply check_clipboard_WInv.
  - eexists. split; [reflexivity|].
    split; [apply clearHistory_Inv|]. split; [constructor|reflexivity].
  - destruct (copyToClipboard_returns self text) as [clipboard ->];
      [apply HW|]. cbn. now exists self.
  - eexists. split; [reflexivity|].
    destruct (findInList_poller self query) as (_ & Hp & Hh).
    apply WInv_same_history with self; [assumption|assumption| |congruence].
    apply findInList_texts.
  - eexists. split; [reflexivity|].
    apply WInv_same_history with self; [assumption|reflexivity| |trivial].
    cbn. rewrite map_map. now apply map_ext.
Qed.

Lemma acts_WInv (l : list action) (self : ClipboardManager) :
  WInv self -> exists self', acts self l = Ok self' /\ WInv self'.
Proof.
  revert self. induction l as [|a l IH]; intros self HW; cbn.
  - eauto.
  - destruct (act_WInv self a HW) as (self1 & -> & HW1). cbn. now apply IH.
Qed.

Lemma reachable_WInv (loaded : json) (l : list action) (self : ClipboardManager) :
  acts (init loaded) l = Ok self -> WInv self.
Proof.
  intros Hacts.
  destruct (acts_WInv l (init loaded) (init_WInv loaded)) as (self' & H & HW).
  rewrite Hacts in H. now injection H as ->.
Qed.

End WindowFacts.

(** ** Beyond the claims: the poller *)

Section LabelFacts.

Lemma append_inj_l (a b c : string) : (a ++ b = a ++ c)%string -> b = c.
Proof.
  induction a as [|x a IH]; cbn; [trivial|]. intros [= H]. now apply IH.
Qed.

Lemma append_inj_r (b c : string) (x : ascii) :
  (b ++ String x "" = c ++ String x "")%string -> b = c.
Proof.
  revert c. induction b as [|y b IH]; intros [|z c]; cbn; intros H.
  - reflexivity.
  - injection H as _ H. now destruct c.
  - injection H as _ H. now destruct b.
  - injection H as -> H. f_equal. now apply IH.
Qed.

End LabelFacts.

(** X1: two images get the same label exactly when the digests of their PNG
    encodings are equal, so the test of line 222 compares digests. *)
Theorem image_path_of_same_iff_same_digest {P : Platform} (a b : QImage) :
  image_path_of a = image_path_of b
  <-> png_md5_hexdigest a = png_md5_hexdigest b.
Proof.
  unfold image_path_of. split; [|now intros ->].
  intros H. apply append_inj_l in H. now apply append_inj_r in H.
Qed.

(** X2: whatever the timer and the user do, every action returns, and the
    list widget shows, for each entry of the history in order, its display
    text followed by one blank row; so it has twice as many rows as the
    history has entries. *)
Theorem rows_follow_history {P : Platform} (loaded : json) (l : list action) :
  exists self,
    acts (init loaded) l = Ok self
    /\ map item_text (listWidget self) = rows_of (history self)
    /\ List.length (listWidget self) = 2 * List.length (history self).
Proof.
  destruct (acts_WInv l (init loaded) (init_WInv loaded))
    as (self & Hacts & _ & _ & Hrows).
  exists self. split; [assumption|]. split; [assumption|].
  rewrite <- (List.length_map item_text), Hrows. apply rows_of_length.
Qed.

(** X3: ticks only append. After any number of ticks the history is the
    old history followed by new entries, each of which was the classified
    content of the clipboard at one of those ticks. *)
Theorem ticks_only_append {P : Platform}
  (loaded : json) (l : list action) (self : ClipboardManager)
  (ticks : list QMimeData) :
  acts (init loaded) l = Ok self ->
  exists self' added,
    acts self (map Poll ticks) = Ok self'
    /\ history self' = history self ++ added
    /\ Forall (fun e => exists mime_data,
                 In mime_data ticks /\ classify mime_data = Some e) added.
Proof.
  intros Hacts. apply reachable_WInv in Hacts. clear loaded l.
  revert self Hacts. induction ticks as [|mime_data ticks IH]; intros self HW.
  - exists self, []. cbn. rewrite app_nil_r. repeat split. constructor.
  - destruct (check_clipboard_WInv self mime_data HW) as (self1 & Hc & HW1).
    destruct (IH self1 HW1) as (self' & added & Hrun & Hh & Hadded).
    assert (Hweak : Forall (fun e => exists md,
                       In md (mime_data :: ticks) /\ classify md = Some e) added).
    { apply Forall_impl with (2 := Hadded).
      intros e (md & Hin & Hmd). exists md. split; [now right|assumption]. }
    cbn [map acts act]. rewrite Hc. cbn [bind].
    apply check_clipboard_cases in Hc
      as [-> | (snap & Hsnap & [-> | [_ ->]])]; cbn [history] in Hh.
    + now exists self', added.
    + now exists self', added.
    + exists self', (snap :: added). split; [assumption|].
      split; [now rewrite Hh, <- app_assoc|].
      constructor; [|assumption]. exists mime_data. split; [now left|assumption].
Qed.

Lemma ticks_only_append_witness :
  acts (init default_settings) pictures_actions = Ok pictures_state
  /\ exists self' added,
       acts pictures_state
         (map Poll [text_on_clipboard "b"; text_on_clipboard "b"]) = Ok self'
       /\ history self' = history pictures_state ++ added
       /\ Forall (fun e => exists mime_data,
                    In mime_data [text_on_clipboard "b"; text_on_clipboard "b"]
                    /\ classify mime_data = Some e) added.
Proof.
  split; [reflexivity|].
  apply (ticks_only_append default_settings pictures_actions pictures_state
           [text_on_clipboard "b"; text_on_clipboard "b"]).
  reflexivity.
Defined.

(** X4: a tick over an unchanged clipboard does nothing: polling the same
    content a second time leaves the state the first tick produced, provided
    the image on the clipboard, if any, compares equal to itself. *)
Theorem second_tick_changes_nothing {P : Platform}
  (loaded : json) (l : list action) (self : ClipboardManager)
  (mime_data : QMimeData) :
  acts (init loaded) l = Ok self ->
  (forall image, md_image mime_data = Some image -> QImage_eq image image = true) ->
  exists self',
    check_clipboard self mime_data = Ok self'
    /\ check_clipboard self' mime_data = Ok self'.
Proof.
  intros Hacts Hrefl. apply reachable_WInv in Hacts as (HI & _).
  assert (Hcur : forall cur, classify mime_data = Some cur -> py_eq cur cur = true).
  { unfold classify. intros cur.
    destruct (md_image mime_data) as [image|].
    - intros [= <-]. cbn. rewrite !String.eqb_refl. now apply Hrefl.
    - destruct (md_urls mime_data);
        [intros [= <-]; apply py_eq_tuple2_refl|].
      destruct (md_text mime_data);
        [intros [= <-]; apply py_eq_tuple2_refl|discriminate]. }
  destruct (md_image mime_data) as [image|] eqn:Himg.
  - set (cur := PyTuple3 "image" (image_path_of image) image).
    assert (Hclass : classify mime_data = Some cur).
    { unfold classify. now rewrite Himg. }
    assert (Hstep : forall s, Inv s ->
              check_clipboard s mime_data
              = Ok (if existsb (tuple_named "image" (image_path_of image)) (history s)
                    then s else observe s (Some cur))).
    { intros s Hs. unfold check_clipboard. rewrite Himg.
      rewrite any_image_named by apply Hs. cbn [bind].
      now destruct (existsb _ (history s)). }
    rewrite (Hstep self HI).
    destruct (existsb (tuple_named "image" (image_path_of image)) (history self))
      eqn:Hknown.
    + exists self. split; [reflexivity|]. now rewrite (Hstep self HI), Hknown.
    + exists (observe self (Some cur)). split; [reflexivity|].
      assert (HI1 : Inv (observe self (Some cur))).
      { apply observe_Inv; [assumption|now apply classify_entry with mime_data|].
        now intros x1 x2 [= <- <-]. }
      rewrite (Hstep _ HI1).
      destruct (existsb _ (history (observe self (Some cur)))); [reflexivity|].
      rewrite observe_twice; [reflexivity|now apply Hcur|apply observe_previous].
  - assert (Hstep : forall s, check_clipboard s mime_data
                                = Ok (observe s (classify mime_data))).
    { intros s. unfold check_clipboard. now rewrite Himg. }
    exists (observe self (classify mime_data)). rewrite !Hstep.
    split; [reflexivity|].
    destruct (classify mime_data) as [cur|] eqn:Hclass; [|reflexivity].
    rewrite observe_twice; [reflexivity|now apply Hcur|apply observe_previous].
Qed.

Lemma second_tick_changes_nothing_witness :
  acts (init default_settings) pictures_actions = Ok pictures_state
  /\ (forall image,
        md_image (image_on_clipboard "other") = Some image ->
        QImage_eq image image = true)
  /\ exists self',
       check_clipboard pictures_state (image_on_clipboard "other") = Ok self'
       /\ check_clipboard self' (image_on_clipboard "other") = Ok self'.
Proof.
  split; [reflexivity|].
  assert (H : forall image,
             md_image (image_on_clipboard "other") = Some image ->
             QImage_eq image image = true).
  { intros image _. apply String.eqb_refl. }
  split; [exact H|].
  apply (second_tick_changes_nothing (P := sample) default_settings
           pictures_actions pictures_state
           (@image_on_clipboard sample "other"));
    [reflexivity|exact H].
Defined.

Section Bound.

Context {P : Platform}.

Lemma acts_bound (l : list action) :
  forall (self self' : ClipboardManager) (n : nat),
    (previous_text self = None /\ history self = []
     \/ List.length (history self) + 1 <= n) ->
    acts self l = Ok self' ->
    previous_text self' = None /\ history self' = []
    \/ List.length (history self') + 1 <= n + polls l.
Proof.
  induction l as [|a l IH]; intros self self' n HK; cbn [acts polls].
  - intros [= <-]. rewrite Nat.add_0_r. exact HK.
  - destruct (act self a) as [self1|e] eqn:Hact; cbn [bind]; [|discriminate].
    intros Hrest. destruct a as [mime_data| |text|query|]; cbn [act] in Hact.
    + replace (n + S (polls l)) with (S n + polls l) by lia.
      apply (IH self1 self' (S n)); [|assumption].
      apply check_clipboard_cases in Hact
        as [-> | (snap & _ & [-> | [Hprev ->]])]; cbn [history previous_text].
      * destruct HK as [[Hp Hh] | HK]; [now left|right; lia].
      * right. destruct HK as [[_ ->] | HK]; cbn; lia.
      * right. destruct HK as [[Hp _] | HK]; [contradiction|].
        rewrite List.length_app. cbn. lia.
    + injection Hact as <-.
      apply (IH (clearHistory self) self' n); [now left|assumption].
    + destruct (copyToClipboard self text); [|discriminate].
      injection Hact as <-. now apply (IH self self' n).
    + injection Hact as <-.
      apply (IH (fst (findInList self query)) self' n); [|assumption].
      destruct (findInList_poller self query) as (_ & -> & ->). exact HK.
    + injection Hact as <-.
      apply (IH (resetHighlighting self) self' n); [exact HK|assumption].
Qed.

End Bound.

(** X5: the history is shorter than the number of ticks: the first content
    read is only recorded as [previous_text], and each later tick appends at
    most one entry. *)
Theorem history_shorter_than_ticks {P : Platform}
  (loaded : json) (l : list action) (self : ClipboardManager) :
  acts (init loaded) l = Ok self ->
  List.length (history self) <= polls l - 1.
Proof.
  intros Hacts.
  destruct (acts_bound l (init loaded) self 0) as [[_ ->] | H];
    [now left|assumption|cbn; lia|cbn in H; lia].
Qed.

Lemma history_shorter_than_ticks_witness :
  acts (init default_settings) pictures_actions = Ok pictures_state
  /\ List.length (history pictures_state) <= polls pictures_actions - 1.
Proof.
  split; [reflexivity|].
  apply (history_shorter_than_ticks default_settings pictures_actions
           pictures_state). reflexivity.
Defined.

(** ** Beyond the claims: search *)

Section SearchFacts.

Context {P : Platform}.

(** [findInList] in closed form. *)
Lemma findInList_eq (self : ClipboardManager) (query : string) :
  findInList self query
  = (mkCM (settings self) (previous_text self) (history self)
       (map (highlight (lower query)) (listWidget self)),
     first_index (matches (lower query)) (listWidget self)).
Proof.
  rewrite (surjective_pairing (findInList self query)).
  rewrite findInList_scrolled. f_equal.
  pose proof (findInList_items self query) as Hitems.
  destruct (findInList_poller self query) as (Hs & Hp & Hh).
  destruct (fst (findInList self query)) as [s p h items]. cbn in *.
  now subst.
Qed.

Lemma highlight_highlight (t1 t2 : string) (item : QListWidgetItem) :
  highlight t2 (highlight t1 item) = highlight t2 item.
Proof.
  unfold highlight, matches.
  destruct (str_in t1 (lower (item_text item))); cbn;
    now destruct (str_in t2 (lower (item_text item))).
Qed.

Lemma first_index_map {A B : Type} (f : A -> B) (p : B -> bool) (l : list A) :
  first_index p (map f l) = first_index (fun x => p (f x)) l.
Proof.
  induction l as [|x l IH]; [reflexivity|]. cbn. now rewrite IH.
Qed.

Lemma first_index_ext {A : Type} (p q : A -> bool) (l : list A) :
  (forall x, p x = q x) -> first_index p l = first_index q l.
Proof.
  intros Hpq. induction l as [|x l IH]; [reflexivity|].
  cbn. now rewrite Hpq, IH.
Qed.




End SearchFacts.

(** X6: a search overwrites the marks of the search before it: searching
    for [q1] and then for [q2] gives the same window and the same scroll
    target as searching for [q2] alone; and a search changes neither the
    settings nor [previous_text] nor the history. *)
Theorem search_depends_on_last_query_only {P : Platform}
  (self : ClipboardManager) (q1 q2 : string) :
  findInList (fst (findInList self q1)) q2 = findInList self q2
  /\ settings (fst (findInList self q2)) = settings self
  /\ previous_text (fst (findInList self q2)) = previous_text self
  /\ history (fst (findInList self q2)) = history self.
Proof.
  rewrite !findInList_eq. cbn [fst settings previous_text history listWidget].
  split; [|repeat split].
  f_equal.
  - f_equal. rewrite map_map. apply map_ext, highlight_highlight.
  - rewrite first_index_map. apply first_index_ext.
    intros item. unfold matches. now rewrite highlight_text.
Qed.

(** X7: closing the find dialog removes every mark, whatever was searched:
    [resetHighlighting] after [findInList] is [resetHighlighting], every row
    ends white on black, and the texts of the rows are kept. *)
Theorem reset_removes_all_marks {P : Platform}
  (self : ClipboardManager) (query : string) :
  resetHighlighting (fst (findInList self query)) = resetHighlighting self
  /\ Forall (fun item => background item = Some white
                         /\ foreground item = Some black)
       (listWidget (resetHighlighting self))
  /\ map item_text (listWidget (resetHighlighting self))
     = map item_text (listWidget self).
Proof.
  rewrite findInList_eq. unfold resetHighlighting.
  cbn [fst settings previous_text history listWidget]. split; [|split].
  - f_equal. rewrite map_map. apply map_ext. intros item.
    unfold setColors. now rewrite highlight_text.
  - apply Forall_map. apply Forall_forall. now intros item _.
  - rewrite map_map. now apply map_ext.
Qed.



(** ** Beyond the claims: restore *)

Section RestoreFacts.

Context {P : Platform}.



Lemma In_urls_stored (text : string) (h : list pyobj) :
  In (PyTuple2 "urls" text) h -> urls_stored text h = true.
Proof.
  intros Hin. apply existsb_exists. eexists. split; [exact Hin|].
  cbn. apply String.eqb_refl.
Qed.

Lemma py_eq_tuple2 (x0 x1 : string) (o : pyobj) :
  py_eq (PyTuple2 x0 x1) o = true -> o = PyTuple2 x0 x1.
Proof.
  destruct o as [s|y0 y1|y0 y1 y2]; cbn; try discriminate.
  rewrite andb_true_iff, !String.eqb_eq. now intros [-> ->].
Qed.

End RestoreFacts.



(** X10: clicking the row of a stored URL entry, when no stored image
    carries that text as its label, puts exactly one URL on the clipboard,
    built from the whole joined string: [QUrl(text)] if that is valid, the
    local-file URL of the text otherwise. The entry's URLs are not split
    again. *)
Theorem restore_urls_entry {P : Platform}
  (self : ClipboardManager) (text : string) :
  In (PyTuple2 "urls" text) (history self) ->
  existsb (tuple_named "image" text) (history self) = false ->
  copyToClipboard self text
  = Ok (setUrls [if isValid (QUrl_of text)
                 then QUrl_of text else QUrl_fromLocalFile text]).
Proof.
  intros Hin Himage. unfold copyToClipboard.
  rewrite (stored_image_none text (history self) Himage). cbn [bind].
  rewrite (In_urls_stored text (history self) Hin).
  now destruct (isValid (QUrl_of text)).
Qed.

Lemma restore_urls_entry_witness :
  In (PyTuple2 "urls" "https://example.org/a") (history pictures_state)
  /\ existsb (tuple_named "image" "https://example.org/a") (history pictures_state)
     = false
  /\ copyToClipboard pictures_state "https://example.org/a"
     = Ok (setUrls [QUrl_of "https://example.org/a"]).
Proof.
  split; [right; now left|]. split; [reflexivity|].
  apply (restore_urls_entry pictures_state "https://example.org/a");
    [right; now left|reflexivity].
Defined.



(** X12: restoring a stored text that is no image label, no stored URL
    string and no existing file, and polling afterwards, adds nothing: the
    history and the rows are as before and [previous_text] is that text
    entry afterwards. *)
Theorem restore_text_then_tick {P : Platform}
  (self : ClipboardManager) (text : string) :
  In (PyTuple2 "text" text) (history self) ->
  existsb (tuple_named "image" text) (history self) = false ->
  urls_stored text (history self) = false ->
  os_path_exists text && os_path_isfile text = false ->
  exists clipboard self',
    copyToClipboard self text = Ok clipboard
    /\ check_clipboard self clipboard = Ok self'
    /\ history self' = history self
    /\ listWidget self' = listWidget self
    /\ previous_text self' = Some (PyTuple2 "text" text).
Proof.
  intros Hin Himage Hurls Hfile.
  exists (setText text), (observe self (Some (PyTuple2 "text" text))).
  split.
  { unfold copyToClipboard.
    rewrite (stored_image_none text (history self) Himage). cbn [bind].
    rewrite Hurls, Hfile. now destruct (str_stored text (history self)). }
  split; [reflexivity|].
  assert (Hmem : existsb (py_eq (PyTuple2 "text" text)) (history self) = true).
  { apply existsb_exists. eexists. split; [exact Hin|apply py_eq_tuple2_refl]. }
  unfold observe, ne_previous. destruct (previous_text self) as [prev|] eqn:Hprev.
  - destruct (py_eq (PyTuple2 "text" text) prev) eqn:Heq; cbn [negb].
    + repeat split. rewrite Hprev. f_equal. now apply py_eq_tuple2.
    + rewrite Hmem. cbn. now repeat split.
  - cbn. now repeat split.
Qed.

Lemma restore_text_then_tick_witness :
  In (PyTuple2 "text" "not a real path") (history fallback_state)
  /\ exists clipboard self',
       copyToClipboard fallback_state "not a real path" = Ok clipboard
       /\ check_clipboard fallback_state clipboard = Ok self'
       /\ history self' = history fallback_state
       /\ listWidget self' = listWidget fallback_state
       /\ previous_text self' = Some (PyTuple2 "text" "not a real path").
Proof.
  split; [now left|].
  apply (restore_text_then_tick fallback_state "not a real path");
    [now left|reflexivity|reflexivity|reflexivity].
Defined.

(** ** Beyond the claims: settings and hotkey *)

Section SettingsFacts.

Context {P : Platform}.

Lemma dict_get_set_same (key : string) (v : json) (members : list (string * json)) :
  dict_get key (dict_set key v members) = Some v.
Proof.
  induction members as [|[k w] members IH]; cbn.
  - now rewrite String.eqb_refl.
  - destruct (k =? key) eqn:Hk; cbn; now rewrite Hk.
Qed.

Lemma dict_get_set_other (key key' : string) (v : json)
  (members : list (string * json)) :
  key' <> key ->
  dict_get key' (dict_set key v members) = dict_get key' members.
Proof.
  intros Hne.
  assert (Hkey : (key =? key') = false).
  { apply String.eqb_neq. congruence. }
  induction members as [|[k w] members IH]; cbn.
  - now rewrite Hkey.
  - destruct (k =? key) eqn:Hk; cbn.
    + apply String.eqb_eq in Hk as ->. now rewrite Hkey.
    + now rewrite IH.
Qed.

Lemma setup_hotkey_thread_keeps (w : World) :
  manager (setup_hotkey_thread w) = manager w
  /\ settings_file (setup_hotkey_thread w) = settings_file w.
Proof.
  unfold setup_hotkey_thread.
  destruct (getitem (settings (manager w)) "hotkey") as [[| | | |hotkey| |]|];
    try now split.
  now destruct (add_hotkey hotkey (hotkeys w)).
Qed.

Lemma update_hotkey_poller (w : World) (new_hotkey : string) :
  poller_part (manager (fst (update_hotkey w new_hotkey)))
  = poller_part (manager w).
Proof.
  unfold update_hotkey.
  destruct (getitem (settings (manager w)) "hotkey") as [old|]; [|reflexivity].
  destruct (if in_hotkeys old (hotkeys w) then _ else _) as [k1|]; [|reflexivity].
  cbn [manager settings_file].
  destruct (setitem (settings (manager w)) "hotkey" (JString new_hotkey))
    as [settings'|]; [|reflexivity].
  destruct (save_settings settings' (settings_file w)) as [f|]; [|reflexivity].
  cbn [fst]. now rewrite (proj1 (setup_hotkey_thread_keeps _)).
Qed.

(** What [update_hotkey] has done when it returns. *)
Lemma update_hotkey_done (w w' : World) (new_hotkey : string) :
  update_hotkey w new_hotkey = (w', None) ->
  exists members,
    settings (manager w) = JObject members
    /\ settings (manager w')
       = JObject (dict_set "hotkey" (JString new_hotkey) members)
    /\ settings_file w' = FileJSON (settings (manager w')).
Proof.
  unfold update_hotkey.
  destruct (getitem (settings (manager w)) "hotkey") as [old|]; [|discriminate].
  destruct (if in_hotkeys old (hotkeys w) then _ else _) as [k1|]; [|discriminate].
  cbn [manager settings_file].
  destruct (settings (manager w)) as [| | | | | |members] eqn:Hs;
    try discriminate. cbn [setitem].
  destruct (save_settings _ (settings_file w)) as [f|] eqn:Hsave; [|discriminate].
  intros [= <-]. exists members. split; [reflexivity|].
  destruct (setup_hotkey_thread_keeps
              (mkWorld (with_settings (manager w)
                          (JObject (dict_set "hotkey" (JString new_hotkey) members)))
                 k1 f)) as [-> ->].
  cbn. split; [reflexivity|].
  unfold save_settings in Hsave.
  destruct (settings_file w); try discriminate; now injection Hsave as <-.
Qed.

Lemma apply_changes_closed (w w' : World) (new_hotkey : string) :
  apply_changes w new_hotkey = (w', Closed) ->
  exists k, update_hotkey (mkWorld (manager w) k (settings_file w)) new_hotkey
            = (w', None).
Proof.
  unfold apply_changes.
  destruct (getitem (settings (manager w)) "hotkey") as [cur|]; [|discriminate].
  destruct (str_eq_json new_hotkey cur); [discriminate|].
  unfold apply_changes_try.
  destruct (add_hotkey new_hotkey (hotkeys w)) as [k1|e1];
    [|destruct e1; discriminate].
  destruct (remove_hotkey (JString new_hotkey) k1) as [k2|e2];
    [|destruct e2; discriminate].
  destruct (remove_hotkey cur k2) as [k3|e3]; [|destruct e3; discriminate].
  destruct (update_hotkey _ new_hotkey) as [w1 [e|]] eqn:Hup;
    [destruct e; discriminate|].
  intros [= <-]. now exists k3.
Qed.

(** What holds of the settings when the dialog was closed. *)
Lemma closed_settings (w w' : World) (new_hotkey : string) :
  apply_changes w new_hotkey = (w', Closed) ->
  getitem (settings (manager w')) "hotkey" = Ok (JString new_hotkey)
  /\ (forall key, key <> "hotkey" ->
        getitem (settings (manager w')) key = getitem (settings (manager w)) key)
  /\ settings_file w' = FileJSON (settings (manager w')).
Proof.
  intros Hclosed. apply apply_changes_closed in Hclosed as [k Hup].
  apply update_hotkey_done in Hup as (members & Hs & Hs' & Hf).
  cbn [manager] in Hs. rewrite Hf, Hs', Hs. cbn [getitem].
  split; [now rewrite dict_get_set_same|].
  split; [|reflexivity].
  intros key Hkey. now rewrite dict_get_set_other.
Qed.

End SettingsFacts.

(** X13: a hotkey that [keyboard.add_hotkey] rejects with [ValueError] is
    reported in the error box and changes nothing: the hotkey table, the
    settings and the settings file are as before. *)
Theorem invalid_hotkey_changes_nothing {P : Platform}
  (w : World) (new_hotkey : string) (current_hotkey : json) :
  getitem (settings (manager w)) "hotkey" = Ok current_hotkey ->
  str_eq_json new_hotkey current_hotkey = false ->
  add_hotkey new_hotkey (hotkeys w) = Raise ValueError ->
  apply_changes w new_hotkey = (w, Critical "Invalid hotkey entered").
Proof.
  intros Hcur Hne Hadd. unfold apply_changes, apply_changes_try.
  now rewrite Hcur, Hne, Hadd.
Qed.

Lemma invalid_hotkey_changes_nothing_witness :
  getitem (settings (manager sample_world)) "hotkey" = Ok (JString "shift+space")
  /\ str_eq_json "" (JString "shift+space") = false
  /\ add_hotkey "" (hotkeys sample_world) = Raise ValueError
  /\ apply_changes sample_world "" = (sample_world, Critical "Invalid hotkey entered").
Proof.
  split; [reflexivity|]. split; [reflexivity|]. split; [reflexivity|].
  apply (invalid_hotkey_changes_nothing sample_world "" (JString "shift+space"));
    reflexivity.
Defined.

(** X14: whatever is typed in the settings dialog and however
    [apply_changes] ends, the history, [previous_text] and the rows of the
    window are untouched. *)
Theorem apply_changes_keeps_history {P : Platform}
  (w : World) (new_hotkey : string) :
  poller_part (manager (fst (apply_changes w new_hotkey)))
  = poller_part (manager w).
Proof.
  unfold apply_changes.
  destruct (getitem (settings (manager w)) "hotkey") as [cur|]; [|reflexivity].
  destruct (str_eq_json new_hotkey cur); [reflexivity|].
  assert (H : poller_part (manager (fst (apply_changes_try w new_hotkey cur)))
              = poller_part (manager w)).
  { unfold apply_changes_try.
    destruct (add_hotkey new_hotkey (hotkeys w)) as [k1|]; [|reflexivity].
    destruct (remove_hotkey (JString new_hotkey) k1) as [k2|]; [|reflexivity].
    destruct (remove_hotkey cur k2) as [k3|]; [|reflexivity].
    exact (update_hotkey_poller (mkWorld (manager w) k3 (settings_file w))
             new_hotkey). }
  destruct (apply_changes_try w new_hotkey cur) as [w' [e|]]; [|exact H].
  now destruct e.
Qed.

(** X15: when [apply_changes] closes the dialog, the change is in force and
    on disk: [settings["hotkey"]] is the new hotkey, every other key of the
    settings is kept, the settings file holds the settings, and
    [load_settings] reads them back. *)
Theorem hotkey_change_is_persisted {P : Platform}
  (w w' : World) (new_hotkey : string) :
  apply_changes w new_hotkey = (w', Closed) ->
  getitem (settings (manager w')) "hotkey" = Ok (JString new_hotkey)
  /\ (forall key, key <> "hotkey" ->
        getitem (settings (manager w')) key = getitem (settings (manager w)) key)
  /\ settings_file w' = FileJSON (settings (manager w'))
  /\ load_settings (settings_file w') = Ok (settings (manager w')).
Proof.
  intros Hclosed.
  destruct (closed_settings w w' new_hotkey Hclosed) as (Hget & Hkeys & Hfile).
  repeat split; try assumption. now rewrite Hfile.
Qed.

Lemma hotkey_change_is_persisted_witness :
  apply_changes sample_world "ctrl+k"
  = (mkWorld (init (JObject [("hotkey", JString "ctrl+k")])) ["ctrl+k"]
       (FileJSON (JObject [("hotkey", JString "ctrl+k")])), Closed)
  /\ load_settings (FileJSON (JObject [("hotkey", JString "ctrl+k")]))
     = Ok (JObject [("hotkey", JString "ctrl+k")]).
Proof.
  split; [reflexivity|].
  apply (hotkey_change_is_persisted (P := sample) sample_world
           (@mkWorld sample (init (JObject [("hotkey", JString "ctrl+k")]))
              ["ctrl+k"] (FileJSON (JObject [("hotkey", JString "ctrl+k")])))
           "ctrl+k").
  reflexivity.
Defined.

(** X16: when the settings file cannot be written, [apply_changes] raises
    [PermissionError] to its caller after the old hotkey has been removed
    from the table and the settings in memory have been changed: no hotkey
    is registered any more, and the file is as it was. *)
Theorem failed_save_leaves_no_hotkey {P : Platform}
  (w : World) (new_hotkey : string) (current_hotkey : json)
  (k1 k2 k3 : keyboard) :
  getitem (settings (manager w)) "hotkey" = Ok current_hotkey ->
  str_eq_json new_hotkey current_hotkey = false ->
  add_hotkey new_hotkey (hotkeys w) = Ok k1 ->
  remove_hotkey (JString new_hotkey) k1 = Ok k2 ->
  remove_hotkey current_hotkey k2 = Ok k3 ->
  in_hotkeys current_hotkey k3 = false ->
  settings_file w = FileUnreadable ->
  exists w',
    apply_changes w new_hotkey = (w', Raised PermissionError)
    /\ hotkeys w' = k3
    /\ getitem (settings (manager w')) "hotkey" = Ok (JString new_hotkey)
    /\ settings_file w' = FileUnreadable.
Proof.
  intros Hcur Hne Hadd Hrem1 Hrem2 Hin Hfile.
  unfold apply_changes, apply_changes_try, update_hotkey.
  rewrite Hcur, Hne, Hadd, Hrem1, Hrem2. cbn [manager hotkeys settings_file].
  rewrite Hcur, Hin.
  destruct (settings (manager w)) as [| | | | | |members] eqn:Hs;
    try discriminate.
  cbn [setitem]. rewrite Hfile. cbn.
  eexists. split; [reflexivity|]. cbn.
  now rewrite dict_get_set_same.
Qed.

Lemma failed_save_leaves_no_hotkey_witness :
  settings_file unreadable_world = FileUnreadable
  /\ exists w',
       apply_changes unreadable_world "ctrl+k" = (w', Raised PermissionError)
       /\ hotkeys w' = []
       /\ getitem (settings (manager w')) "hotkey" = Ok (JString "ctrl+k")
       /\ settings_file w' = FileUnreadable.
Proof.
  split; [reflexivity|].
  apply (failed_save_leaves_no_hotkey (P := sample) unreadable_world "ctrl+k"
           (JString "shift+space") ["ctrl+k"; "shift+space"] ["shift+space"] []);
    reflexivity.
Defined.

(** X17: a hotkey change that closed the dialog survives a restart:
    starting the program on the settings file it wrote gives a window with
    the same settings, the new hotkey among them, and an empty history. *)
Theorem hotkey_change_survives_restart {P : Platform}
  (w w' : World) (new_hotkey : string) (k : keyboard) :
  apply_changes w new_hotkey = (w', Closed) ->
  exists w2,
    startup (settings_file w') k = Ok w2
    /\ manager w2 = init (settings (manager w'))
    /\ getitem (settings (manager w2)) "hotkey" = Ok (JString new_hotkey).
Proof.
  intros Hclosed.
  destruct (closed_settings w w' new_hotkey Hclosed) as (Hget & _ & Hfile).
  unfold startup. rewrite Hfile. cbn [load_settings open_r json_load bind].
  rewrite Hget. cbn [bind]. eexists. split; [reflexivity|].
  rewrite (proj1 (setup_hotkey_thread_keeps _)). cbn. now split.
Qed.

Lemma hotkey_change_survives_restart_witness :
  apply_changes sample_world "ctrl+k"
  = (mkWorld (init (JObject [("hotkey", JString "ctrl+k")])) ["ctrl+k"]
       (FileJSON (JObject [("hotkey", JString "ctrl+k")])), Closed)
  /\ exists w2,
       startup (FileJSON (JObject [("hotkey", JString "ctrl+k")])) [] = Ok w2
       /\ manager w2 = init (JObject [("hotkey", JString "ctrl+k")])
       /\ getitem (settings (manager w2)) "hotkey" = Ok (JString "ctrl+k").
Proof.
  split; [reflexivity|].
  apply (hotkey_change_survives_restart (P := sample) sample_world
           (@mkWorld sample (init (JObject [("hotkey", JString "ctrl+k")]))
              ["ctrl+k"] (FileJSON (JObject [("hotkey", JString "ctrl+k")])))
           "ctrl+k" []).
  reflexivity.
Defined.


(** The settings file [{}] stops the program at startup. *)
Example startup_on_empty_object :
  startup (FileJSON (JObject [])) ["shift+space"] = Raise KeyError.
Proof. reflexivity. Qed.

(** ** Beyond the claims: where history entries come from *)

Section Provenance.

Context {P : Platform}.

Lemma act_history (self self' : ClipboardManager) (a : action) (e : pyobj) :
  act self a = Ok self' ->
  In e (history self') ->
  In e (history self)
  \/ exists mime_data, a = Poll mime_data /\ classify mime_data = Some e.
Proof.
  destruct a as [mime_data| |text|query|]; cbn [act].
  - intros Hc Hin. apply check_clipboard_cases in Hc
      as [-> | (snap & Hsnap & [-> | [_ ->]])]; cbn [history] in Hin.
    + now left.
    + now left.
    + apply in_app_or in Hin as [Hin | [<- | []]]; [now left|].
      right. now exists mime_data.
  - intros [= <-] [].
  - destruct (copyToClipboard self text); [|discriminate].
    intros [= <-]. now left.
  - intros [= <-]. destruct (findInList_poller self query) as (_ & _ & ->).
    now left.
  - intros [= <-]. now left.
Qed.

Lemma acts_history (l : list action) :
  forall (self self' : ClipboardManager) (e : pyobj),
    acts self l = Ok self' ->
    In e (history self') ->
    In e (history self)
    \/ exists mime_data, In (Poll mime_data) l /\ classify mime_data = Some e.
Proof.
  induction l as [|a l IH]; intros self self' e; cbn [acts].
  - intros [= <-]. now left.
  - destruct (act self a) as [self1|] eqn:Hact; cbn [bind]; [|discriminate].
    intros Hrest Hin.
    destruct (IH self1 self' e Hrest Hin) as [Hin1 | (md & Hmd & Hc)].
    + destruct (act_history self self1 a e Hact Hin1) as [H | (md & -> & Hc)];
        [now left|].
      right. exists md. split; [now left|assumption].
    + right. exists md. split; [now right|assumption].
Qed.

End Provenance.

(** X19: the history holds nothing but what the timer read: every entry is
    the classified content the clipboard had at one of the ticks. Clicking
    rows, searching, closing the find dialog and clearing add no entry. *)
Theorem history_entries_were_on_the_clipboard {P : Platform}
  (loaded : json) (l : list action) (self : ClipboardManager) (e : pyobj) :
  acts (init loaded) l = Ok self ->
  In e (history self) ->
  exists mime_data, In (Poll mime_data) l /\ classify mime_data = Some e.
Proof.
  intros Hacts Hin.
  destruct (acts_history l (init loaded) self e Hacts Hin) as [[] | H].
  exact H.
Qed.

Lemma history_entries_were_on_the_clipboard_witness :
  acts (init default_settings) pictures_actions = Ok pictures_state
  /\ In (PyTuple2 "urls" "https://example.org/a") (history pictures_state)
  /\ exists mime_data,
       In (Poll mime_data) pictures_actions
       /\ classify mime_data = Some (PyTuple2 "urls" "https://example.org/a").
Proof.
  split; [reflexivity|]. split; [right; now left|].
  apply (history_entries_were_on_the_clipboard (P := sample) default_settings
           pictures_actions pictures_state
           (@PyTuple2 sample "urls" "https://example.org/a"));
    [reflexivity|right; now left].
Defined.
